(** * rawcopy: raw NTFS volume reads and extent resolution

    A shallow embedding of [ntfs.py] (class [NTFSDisk]) and [models.py].

    Conventions of the embedding.
    - Python integers are unbounded: they are embedded as [Z].
    - The Win32 entry points bound in [shims.py] ([CreateFile],
      [GetFreeDiskSpace], [DeviceIoControl], [CloseHandle],
      [SetFilePointer], [ReadFile]) and [ctypes.get_last_error] are the
      environment: a record [OS] of functions over an abstract world [W].
      General theorems hold for every such environment; [Sim] is one
      concrete environment (a small disk with a file pointer) on which the
      methods are run.
      The environment also says whether the interpreter can allocate a
      [bytes] object of a given size ([can_allocate]).
    - A structure written by the driver is the record of its fields.  What
      [ctypes] does with the objects the methods hand to it is kept:
      [ctypes.byref] accepts an instance of a [ctypes] type and raises
      [TypeError] on a [bytes] object; a field of an integer type reads as
      a Python [int], which has no attribute [value]; indexing an array
      beyond its declared length raises [IndexError].
    - Python run-time errors that the control flow depends on are kept:
      reading an attribute that was never assigned ([AttributeError]),
      reading a local that was never assigned ([UnboundLocalError]),
      [bytes(n)] for a negative [n] ([ValueError]), for an [n] that is no
      [Py_ssize_t] or too large for a [bytes] object ([OverflowError]) or
      for an [n] that cannot be allocated ([MemoryError]), and [//] by zero.
    - Every method runs in a small state-and-exception monad [M] whose state
      holds the object ([self]), the world, and the chronological list of
      OS calls issued so far. *)

From Stdlib Require Import ZArith List String Bool Lia.
From Stdlib Require Import Strings.Byte.
Import ListNotations.
Open Scope Z_scope.

(* ================================================================== *)
(** ** models.py *)

(** DISK_GEOMETRY *)
Record DiskGeometry := {
  Cylinders : Z;
  MediaType : Z;
  TracksPerCylinder : Z;
  SectorsPerTrack : Z;
  BytesPerSector : Z
}.

(** GET_LENGTH_INFORMATION *)
Record GetLengthInformation := { Length : Z }.

Record RetrievalPointerExtent := {
  NextVcn : Z;
  Lcn : Z
}.

(** RETRIEVAL_POINTERS_BUFFER: the header and the trailing array of
    records. *)
Record RetrievalPointersBuffer := {
  ExtentCount : Z;
  StartingVcn : Z;
  Extents : list RetrievalPointerExtent
}.

(** The dataclass [FileExtent]. *)
Record FileExtent := {
  vcn : Z;
  lcn : Z;
  size : Z
}.

(* ================================================================== *)
(** ** Python values and exceptions *)

(** A value of type [wintypes.HANDLE] as Python sees it: [None] or an
    integer. *)
Inductive pyhandle :=
| PyNone
| PyInt (h : Z).

(** Truth value of a handle in [if self.handle:]. *)
Definition truthy (h : pyhandle) : bool :=
  match h with
  | PyNone => false
  | PyInt v => negb (v =? 0)
  end.

Definition pyhandle_eqb (a b : pyhandle) : bool :=
  match a, b with
  | PyNone, PyNone => true
  | PyInt x, PyInt y => x =? y
  | _, _ => false
  end.

(** The messages of the [ValueError]s that [read_clusters] can raise. *)
Inductive value_error :=
| NegativeCount            (* bytes(): "negative count" *)
| ClustersNotPositive      (* "Number of clusters must be greater than 0" *)
| ClusterRangeOutOfBounds  (* "Invalid cluster range, out of bounds" *)
| SectorsNotPositive       (* "Number of sectors must be greater than 0" *)
| SectorRangeOutOfBounds   (* "Invalid sector range, out of bounds" *)
| BufferTooSmall           (* "Buffer is too small to hold the data" *)
| UnexpectedLength (expected got : Z).
                           (* "Expected {expected} bytes, but got {got} bytes" *)

Inductive exn :=
| AttributeError (attribute : string)
| UnboundLocalError (variable : string)
| ZeroDivisionError
| OverflowError
| MemoryError
| TypeError                (* byref() argument must be a ctypes instance *)
| ArrayIndexError          (* IndexError: invalid index, of a ctypes array *)
| ValueError (msg : value_error)
| WinError (code : Z).

Inductive outcome (A : Type) :=
| Returned (a : A)
| Raised (e : exn)
| OutOfFuel.
Arguments Returned {A} a.
Arguments Raised {A} e.
Arguments OutOfFuel {A}.

(** [sys.maxsize] of a 64-bit CPython: no [bytes] object is longer. *)
Definition PY_SSIZE_T_MAX : Z := 2 ^ 63 - 1.

(** The least [Py_ssize_t]. *)
Definition PY_SSIZE_T_MIN : Z := - PY_SSIZE_T_MAX - 1.

(** Size of the header of a [bytes] object together with its final zero
    byte, in a 64-bit CPython: a [bytes] object of [n] bytes occupies
    [PyBytesObject_SIZE + n] bytes, which must not exceed [sys.maxsize]. *)
Definition PyBytesObject_SIZE : Z := 33.

(** ERROR_MORE_DATA *)
Definition ERROR_MORE_DATA : Z := 234.

(* ================================================================== *)
(** ** The object *)

(** The attributes of an [NTFSDisk] instance.  An attribute is [None] until
    an assignment [self.x = ...] has run: the annotations
    [self.handle: wintypes.HANDLE], [self.size_bytes: int], ... of
    [__init__] assign nothing. *)
Record NTFSDisk := {
  disk_path : option string;
  handle : option pyhandle;
  size_bytes : option Z;
  cluster_size : option Z;
  sector_size : option Z;
  sectors_per_cluster : option Z;
  cluster_count : option Z;
  sector_count : option Z;
  current_position : option Z
}.

(** The instance as [__init__] receives it. *)
Definition fresh_object : NTFSDisk :=
  {| disk_path := None; handle := None; size_bytes := None;
     cluster_size := None; sector_size := None;
     sectors_per_cluster := None; cluster_count := None;
     sector_count := None; current_position := None |}.

Definition set_disk_path (v : string) (d : NTFSDisk) : NTFSDisk :=
  {| disk_path := Some v; handle := handle d; size_bytes := size_bytes d;
     cluster_size := cluster_size d; sector_size := sector_size d;
     sectors_per_cluster := sectors_per_cluster d;
     cluster_count := cluster_count d; sector_count := sector_count d;
     current_position := current_position d |}.

Definition set_handle (v : pyhandle) (d : NTFSDisk) : NTFSDisk :=
  {| disk_path := disk_path d; handle := Some v; size_bytes := size_bytes d;
     cluster_size := cluster_size d; sector_size := sector_size d;
     sectors_per_cluster := sectors_per_cluster d;
     cluster_count := cluster_count d; sector_count := sector_count d;
     current_position := current_position d |}.

Definition set_size_bytes (v : Z) (d : NTFSDisk) : NTFSDisk :=
  {| disk_path := disk_path d; handle := handle d; size_bytes := Some v;
     cluster_size := cluster_size d; sector_size := sector_size d;
     sectors_per_cluster := sectors_per_cluster d;
     cluster_count := cluster_count d; sector_count := sector_count d;
     current_position := current_position d |}.

Definition set_cluster_size (v : Z) (d : NTFSDisk) : NTFSDisk :=
  {| disk_path := disk_path d; handle := handle d; size_bytes := size_bytes d;
     cluster_size := Some v; sector_size := sector_size d;
     sectors_per_cluster := sectors_per_cluster d;
     cluster_count := cluster_count d; sector_count := sector_count d;
     current_position := current_position d |}.

Definition set_sector_size (v : Z) (d : NTFSDisk) : NTFSDisk :=
  {| disk_path := disk_path d; handle := handle d; size_bytes := size_bytes d;
     cluster_size := cluster_size d; sector_size := Some v;
     sectors_per_cluster := sectors_per_cluster d;
     cluster_count := cluster_count d; sector_count := sector_count d;
     current_position := current_position d |}.

Definition set_sectors_per_cluster (v : Z) (d : NTFSDisk) : NTFSDisk :=
  {| disk_path := disk_path d; handle := handle d; size_bytes := size_bytes d;
     cluster_size := cluster_size d; sector_size := sector_size d;
     sectors_per_cluster := Some v;
     cluster_count := cluster_count d; sector_count := sector_count d;
     current_position := current_position d |}.

Definition set_cluster_count (v : Z) (d : NTFSDisk) : NTFSDisk :=
  {| disk_path := disk_path d; handle := handle d; size_bytes := size_bytes d;
     cluster_size := cluster_size d; sector_size := sector_size d;
     sectors_per_cluster := sectors_per_cluster d;
     cluster_count := Some v; sector_count := sector_count d;
     current_position := current_position d |}.

Definition set_sector_count (v : Z) (d : NTFSDisk) : NTFSDisk :=
  {| disk_path := disk_path d; handle := handle d; size_bytes := size_bytes d;
     cluster_size := cluster_size d; sector_size := sector_size d;
     sectors_per_cluster := sectors_per_cluster d;
     cluster_count := cluster_count d; sector_count := Some v;
     current_position := current_position d |}.

Definition set_current_position (v : Z) (d : NTFSDisk) : NTFSDisk :=
  {| disk_path := disk_path d; handle := handle d; size_bytes := size_bytes d;
     cluster_size := cluster_size d; sector_size := sector_size d;
     sectors_per_cluster := sectors_per_cluster d;
     cluster_count := cluster_count d; sector_count := sector_count d;
     current_position := Some v |}.

(* ================================================================== *)
(** ** The environment: shims.py *)

(** What a [DeviceIoControl] call leaves in its output buffer, seen through
    the structure the caller reads it as. *)
Inductive out_buffer :=
| OutUntouched
| OutDiskGeometry (g : DiskGeometry)
| OutLength (l : GetLengthInformation)
| OutRetrievalPointers (p : RetrievalPointersBuffer).

Record ioctl_reply := {
  io_ok : bool;                 (* the BOOL the call returns *)
  io_out : out_buffer;          (* lpOutBuffer after the call *)
  io_bytes_returned : Z         (* lpBytesReturned after the call *)
}.

Record read_reply := {
  rd_ok : bool;                 (* the BOOL the call returns *)
  rd_data : list byte;          (* what the device stored in lpBuffer *)
  rd_bytes_read : Z             (* lpNumberOfBytesRead after the call *)
}.

Record disk_space_reply := {
  ds_ok : bool;
  ds_sectors_per_cluster : Z;
  ds_bytes_per_sector : Z
}.

(** The functions of [shims.py] over a world [W], with
    [ctypes.get_last_error] and the interpreter's allocator. *)
Record OS (W : Type) := {
  CreateFile : string -> W -> pyhandle * W;
  GetFreeDiskSpace : string -> W -> disk_space_reply * W;
  DeviceIoControl :
    pyhandle -> Z -> option Z -> Z -> Z -> W -> ioctl_reply * W;
      (* hDevice, dwIoControlCode, input buffer, nInBufferSize,
         nOutBufferSize *)
  CloseHandle : pyhandle -> W -> bool * W;
  SetFilePointer : pyhandle -> Z -> W -> Z * W;
      (* hFile, lDistanceToMove; the DWORD returned *)
  ReadFile : pyhandle -> Z -> W -> read_reply * W;
      (* hFile, nNumberOfBytesToRead *)
  get_last_error : W -> Z;
  can_allocate : Z -> W -> bool
      (* whether the interpreter obtains the memory of a bytes object of
         that many bytes *)
}.
Arguments CreateFile {W}.
Arguments GetFreeDiskSpace {W}.
Arguments DeviceIoControl {W}.
Arguments CloseHandle {W}.
Arguments SetFilePointer {W}.
Arguments ReadFile {W}.
Arguments get_last_error {W}.
Arguments can_allocate {W}.

(** One entry of the call log. *)
Inductive os_event :=
| EvCreateFile (path : string) (ret : pyhandle)
| EvGetFreeDiskSpace (path : string) (ok : bool)
| EvDeviceIoControl (h : pyhandle) (code out_size : Z) (ok : bool)
| EvCloseHandle (h : pyhandle) (ok : bool)
| EvSetFilePointer (h : pyhandle) (offset : Z) (ret : Z)
| EvReadFile (h : pyhandle) (n : Z) (ok : bool) (bytes_read : Z).

Definition is_read (e : os_event) : bool :=
  match e with EvReadFile _ _ _ _ => true | _ => false end.

Definition is_close_of (h : pyhandle) (e : os_event) : bool :=
  match e with EvCloseHandle h' _ => pyhandle_eqb h h' | _ => false end.

(* ================================================================== *)
(** ** The monad of the methods *)

(** State threaded through a method: the object, the world and the OS calls
    issued so far, oldest first. *)
Record machine (W : Type) := {
  self : NTFSDisk;
  world : W;
  calls : list os_event
}.
Arguments self {W}.
Arguments world {W}.
Arguments calls {W}.

Definition M (W A : Type) : Type := machine W -> outcome A * machine W.

Definition ret {W A} (a : A) : M W A := fun m => (Returned a, m).

Definition raise {W A} (e : exn) : M W A := fun m => (Raised e, m).

Definition bind {W A B} (c : M W A) (k : A -> M W B) : M W B :=
  fun m =>
    match c m with
    | (Returned a, m') => k a m'
    | (Raised e, m') => (Raised e, m')
    | (OutOfFuel, m') => (OutOfFuel, m')
    end.

Notation "x <- c ;; k" := (bind c (fun x => k))
  (at level 61, c at next level, right associativity).
Notation "c ;;; k" := (bind c (fun _ => k))
  (at level 61, right associativity).

(** [self.name], raising [AttributeError] when it was never assigned. *)
Definition getattr {W A} (name : string) (proj : NTFSDisk -> option A)
  : M W A :=
  fun m =>
    match proj (self m) with
    | Some v => (Returned v, m)
    | None => (Raised (AttributeError name), m)
    end.

(** [self.name = v]. *)
Definition setattr {W} (upd : NTFSDisk -> NTFSDisk) : M W unit :=
  fun m =>
    (Returned tt,
     {| self := upd (self m); world := world m; calls := calls m |}).

(** Runs one OS call and appends it to the log. *)
Definition oscall {W A} (f : W -> A * W) (ev : A -> os_event) : M W A :=
  fun m =>
    let (r, w') := f (world m) in
    (Returned r,
     {| self := self m; world := w'; calls := calls m ++ [ev r] |}).

(** [ctypes.get_last_error()] *)
Definition last_error {W} (os : OS W) : M W Z :=
  fun m => (Returned (get_last_error os (world m)), m).

(** [bytes(n)]: [n] zero bytes.  An [n] that is no [Py_ssize_t] does not
    convert, a negative [n] is refused, the empty object needs no memory, an
    object that would not fit [sys.maxsize] with its header is refused, and
    any other needs the allocator. *)
Definition py_bytes {W} (os : OS W) (n : Z) : M W (list byte) :=
  if n <? PY_SSIZE_T_MIN then raise OverflowError
  else if n <? 0 then raise (ValueError NegativeCount)
  else if n =? 0 then ret []
  else if PY_SSIZE_T_MAX - PyBytesObject_SIZE <? n then raise OverflowError
  else
    fun m =>
      if can_allocate os n (world m)
      then (Returned (repeat x00 (Z.to_nat n)), m)
      else (Raised MemoryError, m).

(** What [ctypes.byref] can be handed: an instance of a [ctypes] type, or
    a [bytes] object. *)
Inductive byref_argument :=
| CtypesInstance
| BytesObject (b : list byte).

(** [ctypes.byref(obj)] *)
Definition ctypes_byref {W} (obj : byref_argument) : M W unit :=
  match obj with
  | CtypesInstance => ret tt
  | BytesObject _ => raise TypeError
  end.

(** [n.value] for a Python [int] [n], which a structure field of an
    integer type reads as: the attribute does not exist. *)
Definition int_value {W} (n : Z) : M W Z :=
  raise (AttributeError "value").

(** [a[index]] for a [ctypes] array of declared length [declared] and an
    index that is not negative. *)
Definition array_item {W A} (declared : nat) (a : list A) (default : A)
    (index : nat) : M W A :=
  if (index <? declared)%nat then ret (nth index a default)
  else raise ArrayIndexError.

(** [a // b] *)
Definition py_floordiv {W} (a b : Z) : M W Z :=
  if b =? 0 then raise ZeroDivisionError else ret (a / b).

(** The buffer [buf] after the device stored [payload] at its start. *)
Definition store (buf payload : list byte) : list byte :=
  firstn (List.length buf) payload ++ skipn (List.length payload) buf.

(** Reading an output buffer as a structure; a buffer the driver did not
    fill is still zeroed. *)
Definition as_DiskGeometry (o : out_buffer) : DiskGeometry :=
  match o with
  | OutDiskGeometry g => g
  | _ => {| Cylinders := 0; MediaType := 0; TracksPerCylinder := 0;
            SectorsPerTrack := 0; BytesPerSector := 0 |}
  end.

Definition as_GetLengthInformation (o : out_buffer) : GetLengthInformation :=
  match o with
  | OutLength l => l
  | _ => {| Length := 0 |}
  end.

Definition as_RetrievalPointersBuffer (o : out_buffer)
  : RetrievalPointersBuffer :=
  match o with
  | OutRetrievalPointers p => p
  | _ => {| ExtentCount := 0; StartingVcn := 0; Extents := [] |}
  end.

Definition zero_extent : RetrievalPointerExtent :=
  {| NextVcn := 0; Lcn := 0 |}.

(** Control codes used by [ntfs.py]. *)
Definition ioctl_get_disk_geometry : Z := 0x00070000.
Definition ioctl_get_disk_length_info : Z := 0x0007405C.
Definition fsctl_get_ptrs : Z := 0x00090073.

(** [ctypes.sizeof] of the structures handed to the driver. *)
Definition sizeof_DiskGeometry : Z := 24.
Definition sizeof_GetLengthInformation : Z := 8.
Definition sizeof_StartingVcnInputBuffer : Z := 8.

(* ================================================================== *)
(** ** ntfs.py: class NTFSDisk *)

Section Methods.
Context {W : Type} (os : OS W).

(** [NTFSDisk._initialise_disk] *)
Definition _initialise_disk : M W unit :=
  path <- getattr "disk_path" disk_path ;;
  h <- oscall (CreateFile os path) (EvCreateFile path) ;;
  if pyhandle_eqb h (PyInt (-1)) then
    e <- last_error os ;; raise (WinError e)
  else
    setattr (set_handle h).

(** [NTFSDisk._get_disk_geometry] *)
Definition _get_disk_geometry : M W unit :=
  h <- getattr "handle" handle ;;
  r <- oscall
         (DeviceIoControl os h ioctl_get_disk_geometry None 0
            sizeof_DiskGeometry)
         (fun r => EvDeviceIoControl h ioctl_get_disk_geometry
                     sizeof_DiskGeometry (io_ok r)) ;;
  if negb (io_ok r) then
    e <- last_error os ;; raise (WinError e)
  else
    setattr (set_sector_size (BytesPerSector (as_DiskGeometry (io_out r)))).

(** [NTFSDisk._get_disk_length] *)
Definition _get_disk_length : M W unit :=
  h <- getattr "handle" handle ;;
  r <- oscall
         (DeviceIoControl os h ioctl_get_disk_length_info None 0
            sizeof_GetLengthInformation)
         (fun r => EvDeviceIoControl h ioctl_get_disk_length_info
                     sizeof_GetLengthInformation (io_ok r)) ;;
  if negb (io_ok r) then
    e <- last_error os ;; raise (WinError e)
  else
    setattr (set_size_bytes (Length (as_GetLengthInformation (io_out r)))).

(** [NTFSDisk._get_cluster_count] *)
Definition _get_cluster_count : M W unit :=
  path <- getattr "disk_path" disk_path ;;
  r <- oscall (GetFreeDiskSpace os path)
         (fun r => EvGetFreeDiskSpace path (ds_ok r)) ;;
  if negb (ds_ok r) then
    e <- last_error os ;; raise (WinError e)
  else
    setattr (set_cluster_size
               (ds_bytes_per_sector r * ds_sectors_per_cluster r)) ;;;
    setattr (set_sectors_per_cluster (ds_sectors_per_cluster r)).

(** [NTFSDisk.__init__].  The annotated names of lines 22 to 28 assign
    nothing; lines 31 and 32 read [size_bytes], [cluster_size] and
    [sector_size] before the device is opened and queried. *)
Definition __init__ (drive_letter : string) : M W unit :=
  setattr (set_disk_path ("\\.\" ++ drive_letter ++ ":")%string) ;;;
  sb <- getattr "size_bytes" size_bytes ;;
  cs <- getattr "cluster_size" cluster_size ;;
  cc <- py_floordiv sb cs ;;
  setattr (set_cluster_count cc) ;;;
  sb' <- getattr "size_bytes" size_bytes ;;
  ss <- getattr "sector_size" sector_size ;;
  sc <- py_floordiv sb' ss ;;
  setattr (set_sector_count sc) ;;;
  setattr (set_current_position 0) ;;;
  _initialise_disk ;;;
  _get_disk_geometry ;;;
  _get_disk_length ;;;
  _get_cluster_count.

(** [NTFSDisk.__enter__] *)
Definition __enter__ : M W NTFSDisk :=
  fun m => (Returned (self m), m).

(** [NTFSDisk.__exit__] *)
Definition __exit__ : M W unit :=
  h <- getattr "handle" handle ;;
  if truthy h then
    setattr (set_handle PyNone) ;;;
    h' <- getattr "handle" handle ;;
    ok <- oscall (CloseHandle os h') (EvCloseHandle h') ;;
    if negb ok then
      e <- last_error os ;; raise (WinError e)
    else ret tt
  else ret tt.

(** [NTFSDisk.read_clusters].  The arguments of the [ReadFile] call of line
    208 are evaluated in order: [self.handle], [ctypes.byref(data)] with
    [data] the [bytes] object of line 173, the count, and
    [ctypes.byref(bytes_read)]. *)
Definition read_clusters (cluster clusters : Z) : M W (list byte) :=
  cs <- getattr "cluster_size" cluster_size ;;
  let expected_length := cs * clusters in
  data <- py_bytes os expected_length ;;
  spc <- getattr "sectors_per_cluster" sectors_per_cluster ;;
  let sector := cluster * spc in
  spc' <- getattr "sectors_per_cluster" sectors_per_cluster ;;
  let sectors := clusters * spc' in
  if clusters <=? 0 then raise (ValueError ClustersNotPositive) else
  out_of_clusters <-
    (if cluster <? 0 then ret true
     else cc <- getattr "cluster_count" cluster_count ;;
          ret (cc <? cluster + clusters)) ;;
  if (out_of_clusters : bool) then raise (ValueError ClusterRangeOutOfBounds)
  else
  if sectors <=? 0 then raise (ValueError SectorsNotPositive) else
  out_of_sectors <-
    (if sector <? 0 then ret true
     else sc <- getattr "sector_count" sector_count ;;
          ret (sc <? sector + sectors)) ;;
  if (out_of_sectors : bool) then raise (ValueError SectorRangeOutOfBounds)
  else
  ss <- getattr "sector_size" sector_size ;;
  if Z.of_nat (List.length data) <? sectors * ss then
    raise (ValueError BufferTooSmall)
  else
  ss' <- getattr "sector_size" sector_size ;;
  let offset_bytes := sector * ss' in
  pos <- getattr "current_position" current_position ;;
  (if negb (pos =? offset_bytes) then
     h <- getattr "handle" handle ;;
     r <- oscall (SetFilePointer os h offset_bytes)
            (EvSetFilePointer h offset_bytes) ;;
     if r =? 0 then
       e <- last_error os ;; raise (WinError e)
     else
       setattr (set_current_position offset_bytes)
   else ret tt) ;;;
  h <- getattr "handle" handle ;;
  ctypes_byref (BytesObject data) ;;;
  cs' <- getattr "cluster_size" cluster_size ;;
  ctypes_byref CtypesInstance ;;;
  r <- oscall (ReadFile os h (cs' * clusters))
         (fun r => EvReadFile h (cs' * clusters) (rd_ok r)
                     (rd_bytes_read r)) ;;
  if negb (rd_ok r) then
    e <- last_error os ;; raise (WinError e)
  else
  if negb (rd_bytes_read r =? expected_length) then
    raise (ValueError (UnexpectedLength expected_length (rd_bytes_read r)))
  else
    ret (store data (rd_data r)).

(** The [while True] loop of [NTFSDisk.get_retrieval_pointers] (lines 234
    to 260).  [chunk_size] is the size of the buffer handed to the driver;
    [output_buffer_size] is the local of line 257, [None] while it has not
    been assigned.  [fuel] bounds the number of iterations the embedding
    follows. *)
Fixpoint query_loop (fuel : nat) (file_handle : pyhandle)
    (input_size chunk_size : Z) (output_buffer_size : option Z)
  : M W out_buffer :=
  match fuel with
  | O => fun m => (OutOfFuel, m)
  | S fuel' =>
      r <- oscall
             (DeviceIoControl os file_handle fsctl_get_ptrs (Some 0)
                input_size chunk_size)
             (fun r => EvDeviceIoControl file_handle fsctl_get_ptrs
                         chunk_size (io_ok r)) ;;
      if io_ok r then ret (io_out r)
      else
        e <- last_error os ;;
        if e =? ERROR_MORE_DATA then
          match output_buffer_size with
          | None => raise (UnboundLocalError "output_buffer_size")
          | Some s =>
              query_loop fuel' file_handle input_size chunk_size
                (Some (Z.max (s * 2) (io_bytes_returned r)))
          end
        else raise (WinError e)
  end.

(** One iteration of the [for i in range(pointers.ExtentCount)] loop (lines
    266 to 276): the list [extents] after the append.  [Extents] is
    declared with one element; the record of line 267 is read through a
    pointer and is not subject to that length. *)
Definition append_extent (pointers : RetrievalPointersBuffer)
    (extents : list FileExtent) (i : nat) : M W (list FileExtent) :=
  let extent := nth i (Extents pointers) zero_extent in
  start_vcn <-
    (if (i =? 0)%nat then int_value (StartingVcn pointers)
     else
       previous <- array_item 1 (Extents pointers) zero_extent (i - 1) ;;
       int_value (NextVcn previous)) ;;
  next_vcn <- int_value (NextVcn extent) ;;
  first_lcn <- int_value (Lcn extent) ;;
  next_vcn' <- int_value (NextVcn extent) ;;
  ret (extents ++
       [{| vcn := next_vcn; lcn := first_lcn;
           size := next_vcn' - start_vcn |}]).

(** A [for] loop over the indices [indices] that threads the list. *)
Fixpoint for_each (body : list FileExtent -> nat -> M W (list FileExtent))
    (indices : list nat) (extents : list FileExtent)
  : M W (list FileExtent) :=
  match indices with
  | [] => ret extents
  | i :: rest =>
      extents' <- body extents i ;;
      for_each body rest extents'
  end.

(** [NTFSDisk.get_retrieval_pointers] *)
Definition get_retrieval_pointers (fuel : nat) (file_handle : pyhandle)
  : M W (list FileExtent) :=
  let input_size := sizeof_StartingVcnInputBuffer in
  let chunk_size := 1024 in
  output_buffer <- query_loop fuel file_handle input_size chunk_size None ;;
  let pointers := as_RetrievalPointersBuffer output_buffer in
  for_each (append_extent pointers)
    (seq 0 (Z.to_nat (ExtentCount pointers))) [].

(** The first query that [get_retrieval_pointers] sends to the driver. *)
Definition first_query (file_handle : pyhandle) (w : W) : ioctl_reply * W :=
  DeviceIoControl os file_handle fsctl_get_ptrs (Some 0)
    sizeof_StartingVcnInputBuffer 1024 w.

End Methods.

(** Running a method on an object in a world, with an empty call log. *)
Definition run {W A} (c : M W A) (d : NTFSDisk) (w : W)
  : outcome A * machine W :=
  c {| self := d; world := w; calls := [] |}.

(* ================================================================== *)
(** ** A concrete environment *)

(** A volume with a file pointer behind one handle, after the documented
    behaviour of the Win32 calls for a synchronous handle: [SetFilePointer]
    returns the low 32 bits of the new position, or INVALID_SET_FILE_POINTER;
    [ReadFile] transfers what is left of the volume up to the count asked for
    and moves the pointer past it; [CloseHandle] fails on a handle that is
    not open. *)
Module Sim.

Definition ERROR_INVALID_HANDLE : Z := 6.
Definition ERROR_NEGATIVE_SEEK : Z := 131.
Definition INVALID_SET_FILE_POINTER : Z := 0xFFFFFFFF.

Record world := {
  disk : list byte;             (* contents of the volume *)
  pointer : Z;                  (* file pointer of the volume handle *)
  open_handles : list Z;
  error : Z;                    (* the thread's last-error value *)
  bytes_per_sector : Z;
  sectors_in_cluster : Z;
  attempts : nat;               (* retrieval-pointer queries answered *)
  driver : nat -> Z -> ioctl_reply * Z
      (* attempt number, nOutBufferSize: the reply and the last-error *)
}.

Definition is_open (h : pyhandle) (w : world) : bool :=
  match h with
  | PyNone => false
  | PyInt v => existsb (Z.eqb v) (open_handles w)
  end.

Definition with_error (e : Z) (w : world) : world :=
  {| disk := disk w; pointer := pointer w; open_handles := open_handles w;
     error := e; bytes_per_sector := bytes_per_sector w;
     sectors_in_cluster := sectors_in_cluster w; attempts := attempts w;
     driver := driver w |}.

Definition with_pointer (p : Z) (w : world) : world :=
  {| disk := disk w; pointer := p; open_handles := open_handles w;
     error := error w; bytes_per_sector := bytes_per_sector w;
     sectors_in_cluster := sectors_in_cluster w; attempts := attempts w;
     driver := driver w |}.

Definition with_open (hs : list Z) (w : world) : world :=
  {| disk := disk w; pointer := pointer w; open_handles := hs;
     error := error w; bytes_per_sector := bytes_per_sector w;
     sectors_in_cluster := sectors_in_cluster w; attempts := attempts w;
     driver := driver w |}.

Definition with_attempt (w : world) : world :=
  {| disk := disk w; pointer := pointer w; open_handles := open_handles w;
     error := error w; bytes_per_sector := bytes_per_sector w;
     sectors_in_cluster := sectors_in_cluster w; attempts := S (attempts w);
     driver := driver w |}.

Definition failed_ioctl : ioctl_reply :=
  {| io_ok := false; io_out := OutUntouched; io_bytes_returned := 0 |}.

Definition sim_CreateFile (path : string) (w : world) : pyhandle * world :=
  let h := 4 * (1 + Z.of_nat (List.length (open_handles w))) in
  (PyInt h, with_open (h :: open_handles w) w).

Definition sim_GetFreeDiskSpace (path : string) (w : world)
  : disk_space_reply * world :=
  ({| ds_ok := true; ds_sectors_per_cluster := sectors_in_cluster w;
      ds_bytes_per_sector := bytes_per_sector w |}, w).

Definition sim_DeviceIoControl (h : pyhandle) (code : Z) (input : option Z)
    (in_size out_size : Z) (w : world) : ioctl_reply * world :=
  if negb (is_open h w) then
    (failed_ioctl, with_error ERROR_INVALID_HANDLE w)
  else if code =? ioctl_get_disk_geometry then
    ({| io_ok := true;
        io_out := OutDiskGeometry
                    {| Cylinders := 1; MediaType := 12;
                       TracksPerCylinder := 1;
                       SectorsPerTrack :=
                         Z.of_nat (List.length (disk w)) / bytes_per_sector w;
                       BytesPerSector := bytes_per_sector w |};
        io_bytes_returned := sizeof_DiskGeometry |}, w)
  else if code =? ioctl_get_disk_length_info then
    ({| io_ok := true;
        io_out := OutLength {| Length := Z.of_nat (List.length (disk w)) |};
        io_bytes_returned := sizeof_GetLengthInformation |}, w)
  else if code =? fsctl_get_ptrs then
    let (r, e) := driver w (attempts w) out_size in
    (r, with_attempt (if io_ok r then w else with_error e w))
  else
    (failed_ioctl, with_error 1 w).

Definition sim_CloseHandle (h : pyhandle) (w : world) : bool * world :=
  match h with
  | PyInt v =>
      if existsb (Z.eqb v) (open_handles w) then
        (true,
         with_open (filter (fun x => negb (x =? v)) (open_handles w)) w)
      else (false, with_error ERROR_INVALID_HANDLE w)
  | PyNone => (false, with_error ERROR_INVALID_HANDLE w)
  end.

Definition sim_SetFilePointer (h : pyhandle) (offset : Z) (w : world)
  : Z * world :=
  if negb (is_open h w) then
    (INVALID_SET_FILE_POINTER, with_error ERROR_INVALID_HANDLE w)
  else if offset <? 0 then
    (INVALID_SET_FILE_POINTER, with_error ERROR_NEGATIVE_SEEK w)
  else (offset mod 2 ^ 32, with_pointer offset w).

Definition sim_ReadFile (h : pyhandle) (n : Z) (w : world)
  : read_reply * world :=
  if negb (is_open h w) then
    ({| rd_ok := false; rd_data := []; rd_bytes_read := 0 |},
     with_error ERROR_INVALID_HANDLE w)
  else
    let got := firstn (Z.to_nat n) (skipn (Z.to_nat (pointer w)) (disk w)) in
    ({| rd_ok := true; rd_data := got;
        rd_bytes_read := Z.of_nat (List.length got) |},
     with_pointer (pointer w + Z.of_nat (List.length got)) w).

(** The interpreter of the simulation can allocate up to 1 GiB at once. *)
Definition memory : Z := 2 ^ 30.

Definition os : OS world :=
  {| CreateFile := sim_CreateFile;
     GetFreeDiskSpace := sim_GetFreeDiskSpace;
     DeviceIoControl := sim_DeviceIoControl;
     CloseHandle := sim_CloseHandle;
     SetFilePointer := sim_SetFilePointer;
     ReadFile := sim_ReadFile;
     get_last_error := error;
     can_allocate := fun n _ => n <=? memory |}.

(** A driver answering a retrieval-pointer query for a file whose layout is
    [p]: it succeeds when the header and all records fit in the buffer, and
    reports ERROR_MORE_DATA otherwise. *)
Definition layout_driver (p : RetrievalPointersBuffer)
  : nat -> Z -> ioctl_reply * Z :=
  fun _ out_size =>
    let needed := 16 + 16 * Z.of_nat (List.length (Extents p)) in
    if out_size <? needed then
      ({| io_ok := false; io_out := OutUntouched;
          io_bytes_returned := out_size |}, ERROR_MORE_DATA)
    else
      ({| io_ok := true; io_out := OutRetrievalPointers p;
          io_bytes_returned := needed |}, 0).

(** A driver that reports ERROR_MORE_DATA whatever the buffer. *)
Definition insatiable_driver : nat -> Z -> ioctl_reply * Z :=
  fun _ out_size =>
    ({| io_ok := false; io_out := OutUntouched;
        io_bytes_returned := out_size |}, ERROR_MORE_DATA).

(** A driver that reports ERROR_MORE_DATA on the first query and answers
    with the layout [p] from the second on. *)
Definition second_try_driver (p : RetrievalPointersBuffer)
  : nat -> Z -> ioctl_reply * Z :=
  fun attempt out_size =>
    match attempt with
    | O => ({| io_ok := false; io_out := OutUntouched;
               io_bytes_returned := 2 * out_size |}, ERROR_MORE_DATA)
    | S _ => ({| io_ok := true; io_out := OutRetrievalPointers p;
                 io_bytes_returned :=
                   16 + 16 * Z.of_nat (List.length (Extents p)) |}, 0)
    end.

(** The layout of a file stored in logical clusters 100 to 149 and then 500
    to 519. *)
Definition two_runs : RetrievalPointersBuffer :=
  {| ExtentCount := 2; StartingVcn := 0;
     Extents := [ {| NextVcn := 50; Lcn := 100 |};
                  {| NextVcn := 70; Lcn := 500 |} ] |}.

(** The handle of the opened volume and the handle of the file. *)
Definition volume_handle : Z := 7.
Definition file_handle : Z := 11.

Definition byte_of_nat (i : nat) : byte :=
  match Byte.of_N (N.of_nat i) with
  | Some b => b
  | None => x00
  end.

(** A volume of 64 bytes whose byte at offset [i] is [i]: sectors of 4
    bytes, clusters of 2 sectors. *)
Definition small_world (d : nat -> Z -> ioctl_reply * Z) : world :=
  {| disk := map byte_of_nat (seq 0 64);
     pointer := 0;
     open_handles := [volume_handle; file_handle];
     error := 0;
     bytes_per_sector := 4;
     sectors_in_cluster := 2;
     attempts := 0;
     driver := d |}.

(** The object a successful open of that volume would be: geometry read
    from the device, counts derived from it, cursor at 0. *)
Definition small_volume : NTFSDisk :=
  {| disk_path := Some "\\.\C:"%string;
     handle := Some (PyInt volume_handle);
     size_bytes := Some 64;
     cluster_size := Some 8;
     sector_size := Some 4;
     sectors_per_cluster := Some 2;
     cluster_count := Some 8;
     sector_count := Some 16;
     current_position := Some 0 |}.

End Sim.

(* ================================================================== *)
(** ** Predicates used in the statements *)

(** The geometry invariant of an opened volume: the four base fields are
    positive, a cluster is a whole number of sectors, and the two counts are
    the quotients of the volume size. *)
Definition geometry_invariant (d : NTFSDisk) : bool :=
  match size_bytes d, cluster_size d, sector_size d, sectors_per_cluster d,
        cluster_count d, sector_count d with
  | Some sb, Some cs, Some ss, Some spc, Some cc, Some sc =>
      (0 <? sb) && (0 <? cs) && (0 <? ss) && (0 <? spc)
      && (cs =? spc * ss) && (cc =? sb / cs) && (sc =? sb / ss)
  | _, _, _, _, _, _ => false
  end.


(* ================================================================== *)
(** ** ntfs.py: the device queries of the constructor *)

(** Lines 37 to 47 of [NTFSDisk.__init__]: the device is opened and the
    three queries are sent, in this order. *)
Definition open_and_query {W : Type} (os : OS W) : M W unit :=
  _initialise_disk os ;;;
  _get_disk_geometry os ;;;
  _get_disk_length os ;;;
  _get_cluster_count os.

(** An environment like [Sim.os] whose device supports no control code. *)
Definition unsupported_ioctl_os : OS Sim.world :=
  {| CreateFile := Sim.sim_CreateFile;
     GetFreeDiskSpace := Sim.sim_GetFreeDiskSpace;
     DeviceIoControl :=
       fun _ _ _ _ _ w => (Sim.failed_ioctl, Sim.with_error 1 w);
     CloseHandle := Sim.sim_CloseHandle;
     SetFilePointer := Sim.sim_SetFilePointer;
     ReadFile := Sim.sim_ReadFile;
     get_last_error := Sim.error;
     can_allocate := fun n _ => n <=? Sim.memory |}.


(* ================================================================== *)
(** ** __init__.py: copy_file *)

(** What [copy_file] can raise: an exception of the [NTFSDisk] methods or a
    [ctypes.WinError] of its own (lines 29 and 50), the [IndexError] of
    [source_file[0]] on an empty string, and the [ValueError] of line 53. *)
Inductive copy_exn :=
| DiskExn (e : exn)
| IndexError
| NotAllBytesCopied.

Inductive copy_outcome :=
| Copied                       (* returned None *)
| Failed (e : copy_exn)
| CopyOutOfFuel.

(** State of a copy: the disk object with the world and the call log, and
    the destination file, [None] until it is opened with mode "wb". *)
Record copy_state (W : Type) := {
  disk_side : machine W;
  destination : option (list byte)
}.
Arguments disk_side {W}.
Arguments destination {W}.

(** [range(0, stop, step)] for a positive [step]. *)
Definition py_range (stop step : Z) : list Z :=
  map (fun k => Z.of_nat k * step)
      (seq 0 (Z.to_nat ((stop + step - 1) / step))).

(** [sum(...)] of a list of integers. *)
Definition py_sum (l : list Z) : Z := fold_left Z.add l 0.

Section Copy.
Context {W : Type} (os : OS W).

(** The loop [for offset in range(0, extent.size, 10000)] (lines 40 to
    47), from the offsets still to visit: the outcome, the bytes written to
    the destination so far, [copied_bytes], and the machine. *)
Fixpoint copy_chunks (extent : FileExtent) (offsets : list Z)
    (dest : list byte) (copied_bytes : Z) (m : machine W)
  : outcome unit * list byte * Z * machine W :=
  match offsets with
  | [] => (Returned tt, dest, copied_bytes, m)
  | offset :: rest =>
      let current_size := Z.min 10000 (size extent - offset) in
      match read_clusters os (lcn extent + offset) current_size m with
      | (Returned data, m') =>
          copy_chunks extent rest (dest ++ data)
            (copied_bytes + current_size) m'
      | (Raised e, m') => (Raised e, dest, copied_bytes, m')
      | (OutOfFuel, m') => (OutOfFuel, dest, copied_bytes, m')
      end
  end.

(** The loop [for extent in extents] (lines 39 to 47). *)
Fixpoint copy_extents (extents : list FileExtent) (dest : list byte)
    (copied_bytes : Z) (m : machine W)
  : outcome unit * list byte * Z * machine W :=
  match extents with
  | [] => (Returned tt, dest, copied_bytes, m)
  | extent :: rest =>
      match copy_chunks extent (py_range (size extent) 10000) dest
              copied_bytes m with
      | (Returned _, dest', copied', m') =>
          copy_extents rest dest' copied' m'
      | stopped => stopped
      end
  end.

(** The body of [with NTFSDisk(...) as disk] (lines 34 to 47): the outcome,
    the destination, [copied_bytes], [total_size] and the machine. *)
Definition copy_body (fuel : nat) (handle : pyhandle) (m : machine W)
  : outcome unit * option (list byte) * Z * Z * machine W :=
  match get_retrieval_pointers os fuel handle m with
  | (Returned extents, m') =>
      let total_size := py_sum (map size extents) in
      match copy_extents extents [] 0 m' with
      | (o, dest, copied_bytes, m'') =>
          (o, Some dest, copied_bytes, total_size, m'')
      end
  | (Raised e, m') => (Raised e, None, 0, 0, m')
  | (OutOfFuel, m') => (OutOfFuel, None, 0, 0, m')
  end.

(** [copy_file(source_file, destination_file)].  The object is constructed
    on a fresh instance; [__exit__] runs when the body of the [with] block
    is left, and an exception of the body propagates unless [__exit__]
    raises one of its own. *)
Definition copy_file (fuel : nat) (source_file : string) (w : W)
  : copy_outcome * copy_state W :=
  let (handle, w1) := CreateFile os source_file w in
  let m1 := {| self := fresh_object; world := w1;
               calls := [EvCreateFile source_file handle] |} in
  if pyhandle_eqb handle (PyInt (-1)) then
    (Failed (DiskExn (WinError (get_last_error os w1))),
     {| disk_side := m1; destination := None |})
  else
    match source_file with
    | EmptyString =>
        (Failed IndexError, {| disk_side := m1; destination := None |})
    | String c _ =>
        let drive_letter := String c EmptyString in
        match __init__ os drive_letter m1 with
        | (Raised e, m2) =>
            (Failed (DiskExn e), {| disk_side := m2; destination := None |})
        | (OutOfFuel, m2) =>
            (CopyOutOfFuel, {| disk_side := m2; destination := None |})
        | (Returned _, m2) =>
            match copy_body fuel handle m2 with
            | (body, dest, copied_bytes, total_size, m3) =>
                match __exit__ os m3 with
                | (Raised e, m4) =>
                    (Failed (DiskExn e),
                     {| disk_side := m4; destination := dest |})
                | (OutOfFuel, m4) =>
                    (CopyOutOfFuel,
                     {| disk_side := m4; destination := dest |})
                | (Returned _, m4) =>
                    match body with
                    | Raised e =>
                        (Failed (DiskExn e),
                         {| disk_side := m4; destination := dest |})
                    | OutOfFuel =>
                        (CopyOutOfFuel,
                         {| disk_side := m4; destination := dest |})
                    | Returned _ =>
                        let (ok, w5) := CloseHandle os handle (world m4) in
                        let m5 :=
                          {| self := self m4; world := w5;
                             calls := calls m4 ++ [EvCloseHandle handle ok] |}
                        in
                        if negb ok then
                          (Failed (DiskExn (WinError (get_last_error os w5))),
                           {| disk_side := m5; destination := dest |})
                        else if negb (copied_bytes =? total_size) then
                          (Failed NotAllBytesCopied,
                           {| disk_side := m5; destination := dest |})
                        else
                          (Copied,
                           {| disk_side := m5; destination := dest |})
                    end
                end
            end
        end
    end.

End Copy.

(* ================================================================== *)
(** ** Proof tools *)

Ltac unfold_monad :=
  unfold run, bind, getattr, setattr, oscall, last_error, py_bytes,
    py_floordiv, ctypes_byref, int_value, array_item, ret, raise in *.

(** Splits on an innermost scrutinee of the goal. *)
Ltac split_scrutinee :=
  match goal with
  | |- context [match ?x with _ => _ end] =>
      lazymatch x with
      | context [match _ with _ => _ end] => fail
      | _ => destruct x eqn:?
      end
  end.

Ltac run_monad :=
  unfold_monad;
  repeat (cbn -[Z.mul Z.add Z.sub Z.ltb Z.leb Z.eqb Z.pow Z.to_nat Z.of_nat
                Z.max Z.div] in *;
          try split_scrutinee).

(* ================================================================== *)
(** ** Opening and closing the volume *)

(** C9.  The claim describes the geometry after a successful open.  The
    constructor never gets that far: line 31 reads [self.size_bytes], which
    no statement has assigned yet, so for every drive letter and every
    environment [NTFSDisk(drive_letter)] raises [AttributeError] with only
    [disk_path] set, before the device is opened or queried and before
    [cluster_count] or [sector_count] receive a value. *)
Theorem init_reads_size_before_query :
  forall (W : Type) (os : OS W) (drive_letter : string) (w : W),
    run (__init__ os drive_letter) fresh_object w =
    (Raised (AttributeError "size_bytes"),
     {| self := set_disk_path ("\\.\" ++ drive_letter ++ ":") fresh_object;
        world := w; calls := [] |}).
Proof. reflexivity. Qed.

Section Closing.
Context {W : Type} (os : OS W).

(** Whatever the environment, [__exit__] on an object holding a handle
    issues exactly one call, [CloseHandle(None)]. *)
Lemma exit_passes_None (d : NTFSDisk) (w : W) (h : pyhandle) :
  handle d = Some h -> truthy h = true ->
  calls (snd (run (__exit__ os) d w)) =
    [EvCloseHandle PyNone (fst (CloseHandle os PyNone w))]
  /\ handle (self (snd (run (__exit__ os) d w))) = Some PyNone.
Proof.
  intros Hh Ht. unfold __exit__. run_monad; try congruence.
  all: rewrite Hh in *; inversion Heqo; subst; try congruence.
  all: split; reflexivity.
Qed.

(** [__exit__] on an object whose handle is [None] does nothing. *)
Lemma exit_closed_is_noop (d : NTFSDisk) (w : W) :
  handle d = Some PyNone ->
  run (__exit__ os) d w =
    (Returned tt, {| self := d; world := w; calls := [] |}).
Proof.
  intros Hh. unfold __exit__. unfold_monad. cbn. rewrite Hh. reflexivity.
Qed.

End Closing.

(** C8.  The claim has [__exit__] release the device handle through
    [CloseHandle].  The code clears [self.handle] first and then passes the
    cleared attribute: on the open volume the only call is
    [CloseHandle(None)], which the system rejects, so [__exit__] raises and
    the device handle stays open.  A second [__exit__] is then a no-op. *)
Theorem exit_leaves_device_handle_open :
  let w := Sim.small_world (Sim.layout_driver Sim.two_runs) in
  let r := run (__exit__ Sim.os) Sim.small_volume w in
  Sim.is_open (PyInt Sim.volume_handle) w = true
  /\ fst r = Raised (WinError Sim.ERROR_INVALID_HANDLE)
  /\ calls (snd r) = [EvCloseHandle PyNone false]
  /\ existsb (is_close_of (PyInt Sim.volume_handle)) (calls (snd r)) = false
  /\ Sim.is_open (PyInt Sim.volume_handle) (world (snd r)) = true
  /\ run (__exit__ Sim.os) (self (snd r)) (world (snd r)) =
       (Returned tt,
        {| self := self (snd r); world := world (snd r); calls := [] |}).
Proof. cbv zeta. repeat split; reflexivity. Qed.

(* ================================================================== *)
(** ** Extent resolution *)

Section Resolution.
Context {W : Type} (os : OS W).

(** The decoding loop stops in its first iteration: line 272 asks the
    integer [pointers.StartingVcn] for an attribute [value]. *)
Lemma decoding_stops_at_first_record (pointers : RetrievalPointersBuffer)
    (n : nat) (m : machine W) :
  for_each (append_extent pointers) (seq 0 n) [] m =
    (match n with
     | O => Returned []
     | S _ => Raised (AttributeError "value")
     end, m).
Proof. destruct n; reflexivity. Qed.

(** When the first query succeeds the loop ends there, and the call
    returns the empty list or raises in the decoding loop. *)
Lemma first_query_success (file_handle : pyhandle) (d : NTFSDisk) (w : W)
    (fuel : nat) :
  io_ok (fst (first_query os file_handle w)) = true ->
  run (get_retrieval_pointers os (S fuel) file_handle) d w =
    (match Z.to_nat
             (ExtentCount
                (as_RetrievalPointersBuffer
                   (io_out (fst (first_query os file_handle w))))) with
     | O => Returned []
     | S _ => Raised (AttributeError "value")
     end,
     {| self := d; world := snd (first_query os file_handle w);
        calls := [EvDeviceIoControl file_handle fsctl_get_ptrs 1024 true] |}).
Proof.
  unfold first_query, get_retrieval_pointers. intros Hok.
  cbn [query_loop]. unfold run, bind, oscall, ret. cbn -[Z.to_nat].
  destruct (DeviceIoControl os file_handle fsctl_get_ptrs (Some 0)
              sizeof_StartingVcnInputBuffer 1024 w) as [r w'] eqn:E.
  cbn -[Z.to_nat] in *. rewrite Hok.
  apply decoding_stops_at_first_record.
Qed.

(** When the first query reports ERROR_MORE_DATA, line 257 reads the local
    [output_buffer_size], which nothing has assigned. *)
Lemma first_query_more_data (file_handle : pyhandle) (d : NTFSDisk) (w : W)
    (fuel : nat) :
  io_ok (fst (first_query os file_handle w)) = false ->
  get_last_error os (snd (first_query os file_handle w)) = ERROR_MORE_DATA ->
  run (get_retrieval_pointers os (S fuel) file_handle) d w =
    (Raised (UnboundLocalError "output_buffer_size"),
     {| self := d; world := snd (first_query os file_handle w);
        calls := [EvDeviceIoControl file_handle fsctl_get_ptrs 1024 false] |}).
Proof.
  unfold first_query, get_retrieval_pointers. intros Hok Herr.
  cbn [query_loop]. unfold_monad. cbn.
  destruct (DeviceIoControl os file_handle fsctl_get_ptrs (Some 0)
              sizeof_StartingVcnInputBuffer 1024 w) as [r w'] eqn:E.
  cbn in *. rewrite Hok. cbn. rewrite Herr. reflexivity.
Qed.

(** When the first query fails with another status, that status is
    raised. *)
Lemma first_query_other_status (file_handle : pyhandle) (d : NTFSDisk)
    (w : W) (fuel : nat) :
  io_ok (fst (first_query os file_handle w)) = false ->
  get_last_error os (snd (first_query os file_handle w))
    <> ERROR_MORE_DATA ->
  run (get_retrieval_pointers os (S fuel) file_handle) d w =
    (Raised (WinError
               (get_last_error os (snd (first_query os file_handle w)))),
     {| self := d; world := snd (first_query os file_handle w);
        calls := [EvDeviceIoControl file_handle fsctl_get_ptrs 1024
                    false] |}).
Proof.
  unfold first_query, get_retrieval_pointers.
  intros Hok Herr. cbn [query_loop]. unfold_monad. cbn.
  destruct (DeviceIoControl os file_handle fsctl_get_ptrs (Some 0)
              sizeof_StartingVcnInputBuffer 1024 w) as [r w'] eqn:E.
  cbn in *. rewrite Hok. cbn.
  apply Z.eqb_neq in Herr. rewrite Herr. reflexivity.
Qed.


End Resolution.

(** C6.  The claim has the response decoded into one extent per record.
    The decoding loop reads [pointers.StartingVcn.value],
    [extent.NextVcn.value] and [extent.Lcn.value], but a field of an
    integer type reads as a Python [int], which has no attribute [value]:
    for the file stored in logical clusters 100 to 149 and then 500 to 519
    the driver answers the first query with the two records, and the call
    raises [AttributeError] in the first iteration instead of returning the
    extents (50, 100, 50) and (70, 500, 20). *)
Theorem two_runs_are_not_decoded :
  forall fuel : nat,
    let w := Sim.small_world (Sim.layout_driver Sim.two_runs) in
    let r := run (get_retrieval_pointers Sim.os (S fuel)
                    (PyInt Sim.file_handle)) Sim.small_volume w in
    fst (first_query Sim.os (PyInt Sim.file_handle) w) =
      {| io_ok := true; io_out := OutRetrievalPointers Sim.two_runs;
         io_bytes_returned := 48 |}
    /\ fst r = Raised (AttributeError "value")
    /\ fst r <> Returned [ {| vcn := 50; lcn := 100; size := 50 |};
                           {| vcn := 70; lcn := 500; size := 20 |} ]
    /\ calls (snd r) =
         [EvDeviceIoControl (PyInt Sim.file_handle) fsctl_get_ptrs 1024 true].
Proof.
  intros fuel w r. subst r.
  rewrite (first_query_success Sim.os) by reflexivity.
  repeat split; try reflexivity. discriminate.
Qed.

(** C2.  The claim has the query retried with a larger buffer after
    ERROR_MORE_DATA.  The growth statement of line 257 reads
    [output_buffer_size], a local that is never assigned ([chunk_size] is
    the variable that holds the size), so the first ERROR_MORE_DATA ends the
    call with [UnboundLocalError]: with a driver that refuses the first
    query and would answer the second, exactly one query of 1024 bytes is
    sent and no extents are returned. *)
Theorem more_data_is_not_retried :
  forall fuel : nat,
    let w := Sim.small_world (Sim.second_try_driver Sim.two_runs) in
    let r := run (get_retrieval_pointers Sim.os (S fuel)
                    (PyInt Sim.file_handle)) Sim.small_volume w in
    io_ok (fst (Sim.second_try_driver Sim.two_runs 0 1024)) = false
    /\ io_ok (fst (Sim.second_try_driver Sim.two_runs 1 2048)) = true
    /\ fst r = Raised (UnboundLocalError "output_buffer_size")
    /\ calls (snd r) =
         [EvDeviceIoControl (PyInt Sim.file_handle) fsctl_get_ptrs 1024 false].
Proof.
  intros fuel w r. subst r.
  rewrite (first_query_more_data Sim.os) by reflexivity.
  repeat split; reflexivity.
Qed.




(* ================================================================== *)
(** ** Reading clusters *)

Ltac same_attrs :=
  repeat match goal with
    | H : Some _ = Some _ |- _ => inversion H; subst; clear H
    | H : Some _ = None |- _ => discriminate H
    | H : None = Some _ |- _ => discriminate H
    end.

Ltac to_arith :=
  repeat match goal with
    | H : (_ <? _) = true |- _ => apply Z.ltb_lt in H
    | H : (_ <? _) = false |- _ => apply Z.ltb_ge in H
    | H : (_ <=? _) = true |- _ => apply Z.leb_le in H
    | H : (_ <=? _) = false |- _ => apply Z.leb_gt in H
    | H : (_ =? _) = true |- _ => apply Z.eqb_eq in H
    | H : (_ =? _) = false |- _ => apply Z.eqb_neq in H
    | H : negb _ = true |- _ => apply negb_true_iff in H
    | H : negb _ = false |- _ => apply negb_false_iff in H
    end.

Ltac in_cases H :=
  repeat match type of H with
    | _ \/ _ => destruct H as [H|H]
    | False => contradiction
    end.

Section Reading.
Context {W : Type} (os : OS W).

(** [read_clusters] assigns to no attribute but [current_position]. *)
Lemma read_clusters_touches_cursor_only (d : NTFSDisk) (w : W)
    (cluster clusters : Z) :
  self (snd (run (read_clusters os cluster clusters) d w)) = d
  \/ exists offset : Z,
       self (snd (run (read_clusters os cluster clusters) d w)) =
       set_current_position offset d.
Proof.
  unfold read_clusters. run_monad;
    solve [left; reflexivity | right; eexists; reflexivity].
Qed.


(** A read that starts at the tracked cursor does not move the device
    cursor first. *)
Lemma read_clusters_at_cursor_does_not_seek (d : NTFSDisk) (w : W)
    (spc ss cluster clusters : Z) :
  sectors_per_cluster d = Some spc ->
  sector_size d = Some ss ->
  current_position d = Some (cluster * spc * ss) ->
  calls (snd (run (read_clusters os cluster clusters) d w)) = [].
Proof.
  intros Hspc Hss Hpos. unfold read_clusters. run_monad; same_attrs;
    to_arith; try reflexivity; congruence.
Qed.

(** A request outside the volume reaches no OS call and leaves the object
    alone.  The buffer of line 173 is allocated first: the request raises
    [ValueError] when [bytes()] refuses a negative size or yields the
    buffer, [OverflowError] when the size is no [Py_ssize_t] or leaves no
    room for the header of the object, and [MemoryError] when the
    allocation fails. *)
Lemma invalid_request_no_io (d : NTFSDisk) (w : W)
    (cs spc cc cluster clusters : Z) :
  cluster_size d = Some cs ->
  sectors_per_cluster d = Some spc ->
  cluster_count d = Some cc ->
  clusters <= 0 \/ cluster < 0 \/ cc < cluster + clusters ->
  snd (run (read_clusters os cluster clusters) d w) =
    {| self := d; world := w; calls := [] |}
  /\ (PY_SSIZE_T_MIN <= cs * clusters
                      <= PY_SSIZE_T_MAX - PyBytesObject_SIZE ->
      cs * clusters <= 0 \/ can_allocate os (cs * clusters) w = true ->
      exists msg : value_error,
        fst (run (read_clusters os cluster clusters) d w) =
        Raised (ValueError msg))
  /\ (cs * clusters < PY_SSIZE_T_MIN
      \/ PY_SSIZE_T_MAX - PyBytesObject_SIZE < cs * clusters ->
      fst (run (read_clusters os cluster clusters) d w) =
      Raised OverflowError)
  /\ (0 < cs * clusters <= PY_SSIZE_T_MAX - PyBytesObject_SIZE ->
      can_allocate os (cs * clusters) w = false ->
      fst (run (read_clusters os cluster clusters) d w) =
      Raised MemoryError).
Proof.
  intros Hcs Hspc Hcc Hbad. unfold read_clusters. run_monad; same_attrs;
    to_arith; try lia.
  all: split; [reflexivity|].
  all: unfold PY_SSIZE_T_MIN, PY_SSIZE_T_MAX, PyBytesObject_SIZE in *.
  all: repeat split; intros;
    solve [eexists; reflexivity | reflexivity | lia | congruence
          | intuition (try lia; try congruence) ].
Qed.

End Reading.



(** C5.  The claim has two identical reads in a row return the same bytes.
    Neither returns any: on the small volume the first read of cluster 1
    moves the device cursor to offset 8 and then raises [TypeError] while
    the arguments of [ReadFile] are built, and the second, which finds the
    tracked cursor at 8 and issues no call at all, raises the same error. *)
Theorem repeated_read_returns_nothing :
  let w := Sim.small_world (Sim.layout_driver Sim.two_runs) in
  let first := run (read_clusters Sim.os 1 1) Sim.small_volume w in
  let second := run (read_clusters Sim.os 1 1) (self (snd first))
                  (world (snd first)) in
  fst first = Raised TypeError
  /\ calls (snd first) = [EvSetFilePointer (PyInt Sim.volume_handle) 8 8]
  /\ current_position (self (snd first)) = Some 8
  /\ Sim.pointer (world (snd first)) = 8
  /\ fst second = Raised TypeError
  /\ calls (snd second) = []
  /\ (forall data : list byte,
        fst first <> Returned data /\ fst second <> Returned data).
Proof.
  cbv zeta. repeat split; try reflexivity; discriminate.
Qed.

(** C7.  The claim has every request outside the volume fail with the
    range error.  The buffer is allocated (line 173) before the range is
    checked (lines 178 to 191): a count of 2^63 clusters on the small
    volume, far beyond its 8 clusters, raises [OverflowError] from
    [bytes()] and not a [ValueError].  No OS call is issued and the object
    is unchanged. *)
Theorem oversized_request_overflows :
  let r := run (read_clusters Sim.os 0 (2 ^ 63)) Sim.small_volume
             (Sim.small_world (Sim.layout_driver Sim.two_runs)) in
  cluster_count Sim.small_volume = Some 8
  /\ 8 < 0 + 2 ^ 63
  /\ fst r = Raised OverflowError
  /\ (forall msg : value_error, fst r <> Raised (ValueError msg))
  /\ calls (snd r) = []
  /\ self (snd r) = Sim.small_volume.
Proof.
  cbv zeta. repeat split; try reflexivity. intros msg. discriminate.
Qed.

Lemma geometry_invariant_fields (d : NTFSDisk) :
  geometry_invariant d = true ->
  exists sb cs ss spc : Z,
    size_bytes d = Some sb /\ cluster_size d = Some cs
    /\ sector_size d = Some ss /\ sectors_per_cluster d = Some spc
    /\ cluster_count d = Some (sb / cs) /\ sector_count d = Some (sb / ss)
    /\ 0 < sb /\ 0 < cs /\ 0 < ss /\ 0 < spc /\ cs = spc * ss.
Proof.
  unfold geometry_invariant.
  destruct (size_bytes d) as [sb|]; [|discriminate].
  destruct (cluster_size d) as [cs|]; [|discriminate].
  destruct (sector_size d) as [ss|]; [|discriminate].
  destruct (sectors_per_cluster d) as [spc|]; [|discriminate].
  destruct (cluster_count d) as [cc|]; [|discriminate].
  destruct (sector_count d) as [sc|]; [|discriminate].
  intros H. repeat rewrite andb_true_iff in H.
  destruct H as [[[[[[H1 H2] H3] H4] H5] H6] H7]. to_arith. subst.
  exists sb, (spc * ss), ss, spc. repeat split; assumption || reflexivity.
Qed.

(** Whole clusters inside the cluster count are whole sectors inside the
    sector count. *)
Lemma cluster_range_is_sector_range (sb ss spc cluster clusters : Z) :
  0 < ss -> 0 < spc ->
  0 < clusters -> 0 <= cluster ->
  cluster + clusters <= sb / (spc * ss) ->
  0 < clusters * spc
  /\ 0 <= cluster * spc
  /\ cluster * spc + clusters * spc <= sb / ss.
Proof.
  intros Hss Hspc Hpos Hlo Hhi. split; [nia|]. split; [nia|].
  apply Z.div_le_lower_bound; [assumption|].
  assert (Hq : spc * ss * (sb / (spc * ss)) <= sb)
    by (apply Z.mul_div_le; nia).
  nia.
Qed.

(** C10.  Under the geometry invariant, a request that passes the cluster
    checks passes the sector checks: its sector count is positive, its
    first sector is not negative and its last sector lies within the sector
    count, and the buffer is large enough; so [read_clusters] raises none of
    the three errors of lines 184 to 191. *)
Theorem sector_checks_are_redundant :
  forall (d : NTFSDisk) (spc cc sc cluster clusters : Z),
    geometry_invariant d = true ->
    sectors_per_cluster d = Some spc ->
    cluster_count d = Some cc ->
    sector_count d = Some sc ->
    0 < clusters -> 0 <= cluster -> cluster + clusters <= cc ->
    (0 < clusters * spc
     /\ 0 <= cluster * spc
     /\ cluster * spc + clusters * spc <= sc)
    /\ forall (W : Type) (os : OS W) (w : W),
         let r := run (read_clusters os cluster clusters) d w in
         fst r <> Raised (ValueError SectorsNotPositive)
         /\ fst r <> Raised (ValueError SectorRangeOutOfBounds)
         /\ fst r <> Raised (ValueError BufferTooSmall).
Proof.
  intros d spc cc sc cluster clusters Hinv Hspc Hcc Hsc Hpos Hlo Hhi.
  destruct (geometry_invariant_fields d Hinv)
    as (sb & cs & ss & spc' & Hsb & Hcs & Hss & Hspc' & Hcc' & Hsc'
        & Psb & Pcs & Pss & Pspc & Ecs).
  rewrite Hspc in Hspc'. rewrite Hcc in Hcc'. rewrite Hsc in Hsc'.
  same_attrs.
  assert (Harith := cluster_range_is_sector_range sb ss spc' cluster clusters
                      Pss Pspc Hpos Hlo Hhi).
  split; [exact Harith|].
  intros W os w. unfold read_clusters. run_monad; same_attrs; to_arith.
  all: try (repeat split; discriminate).
  all: try lia.
  all: rewrite ?repeat_length in *; nia.
Qed.

Lemma sector_checks_are_redundant_witness :
  (0 < 1 * 2 /\ 0 <= 1 * 2 /\ 1 * 2 + 1 * 2 <= 16)
  /\ forall (W : Type) (os : OS W) (w : W),
       let r := run (read_clusters os 1 1) Sim.small_volume w in
       fst r <> Raised (ValueError SectorsNotPositive)
       /\ fst r <> Raised (ValueError SectorRangeOutOfBounds)
       /\ fst r <> Raised (ValueError BufferTooSmall).
Proof.
  apply (sector_checks_are_redundant Sim.small_volume 2 8 16 1 1);
    [reflexivity | reflexivity | reflexivity | reflexivity | lia | lia | lia].
Defined.

(* ================================================================== *)
(** ** Further properties of [read_clusters] *)

(** X1.  A request with a count that is not positive, a negative first
    cluster, or an end past the cluster count never reaches the device: no
    OS call is issued and the object and the world are unchanged.  The
    error is a [ValueError] whenever [bytes()] refuses the size of the
    buffer of line 173 as negative or yields the buffer: the size is a
    [Py_ssize_t], leaves room for the header of the object, and is either
    not positive or can be allocated. *)
Theorem rejected_request_reaches_no_device :
  forall (W : Type) (os : OS W) (d : NTFSDisk) (w : W)
         (cs spc cc cluster clusters : Z),
    cluster_size d = Some cs ->
    sectors_per_cluster d = Some spc ->
    cluster_count d = Some cc ->
    clusters <= 0 \/ cluster < 0 \/ cc < cluster + clusters ->
    let r := run (read_clusters os cluster clusters) d w in
    calls (snd r) = []
    /\ self (snd r) = d
    /\ world (snd r) = w
    /\ (PY_SSIZE_T_MIN <= cs * clusters
                       <= PY_SSIZE_T_MAX - PyBytesObject_SIZE ->
        cs * clusters <= 0 \/ can_allocate os (cs * clusters) w = true ->
        exists msg : value_error, fst r = Raised (ValueError msg)).
Proof.
  intros W os d w cs spc cc cluster clusters Hcs Hspc Hcc Hbad r.
  destruct (invalid_request_no_io os d w cs spc cc cluster clusters
              Hcs Hspc Hcc Hbad) as (Hsnd & Hval & _).
  subst r. rewrite Hsnd. cbn. repeat split. exact Hval.
Qed.

Lemma rejected_request_reaches_no_device_witness :
  let r := run (read_clusters Sim.os 7 2) Sim.small_volume
             (Sim.small_world Sim.insatiable_driver) in
  calls (snd r) = []
  /\ self (snd r) = Sim.small_volume
  /\ world (snd r) = Sim.small_world Sim.insatiable_driver
  /\ exists msg : value_error, fst r = Raised (ValueError msg).
Proof.
  destruct (rejected_request_reaches_no_device Sim.world Sim.os
              Sim.small_volume (Sim.small_world Sim.insatiable_driver)
              8 2 8 7 2 eq_refl eq_refl eq_refl
              (or_intror (or_intror (eq_refl : (8 ?= 7 + 2) = Lt))))
    as (Hcalls & Hself & Hworld & Hvalue).
  split; [exact Hcalls|]. split; [exact Hself|]. split; [exact Hworld|].
  apply Hvalue.
  - unfold PY_SSIZE_T_MIN, PY_SSIZE_T_MAX, PyBytesObject_SIZE. lia.
  - right. reflexivity.
Defined.

(** X2.  Whatever the request and the environment, [read_clusters] issues
    no OS call at all or exactly one, a [SetFilePointer] on [self.handle]
    to [cluster * sectors_per_cluster * sector_size]: [ReadFile] is never
    called. *)
Theorem read_clusters_only_seeks :
  forall (W : Type) (os : OS W) (d : NTFSDisk) (w : W) (cluster clusters : Z),
    let log := calls (snd (run (read_clusters os cluster clusters) d w)) in
    log = []
    \/ exists (h : pyhandle) (spc ss ret : Z),
         handle d = Some h
         /\ sectors_per_cluster d = Some spc /\ sector_size d = Some ss
         /\ SetFilePointer os h (cluster * spc * ss) w
            = (ret, world (snd (run (read_clusters os cluster clusters) d w)))
         /\ log = [EvSetFilePointer h (cluster * spc * ss) ret].
Proof.
  intros W os d w cluster clusters. unfold read_clusters.
  run_monad; same_attrs; to_arith; subst;
    first [ left; reflexivity
          | right; do 4 eexists; repeat (split; [reflexivity|]);
            split; [eassumption | reflexivity] ].
Qed.

(** X3.  [read_clusters] takes a [SetFilePointer] result of 0 for a failed
    seek: it raises [WinError] with the thread's last error, does not call
    [ReadFile] and leaves the object, tracked cursor included, as it was. *)
Theorem seek_returning_zero_aborts :
  forall (W : Type) (os : OS W) (d : NTFSDisk) (w : W)
         (cluster clusters : Z) (h : pyhandle) (offset : Z),
    let r := run (read_clusters os cluster clusters) d w in
    In (EvSetFilePointer h offset 0) (calls (snd r)) ->
    fst r = Raised (WinError (get_last_error os (world (snd r))))
    /\ self (snd r) = d
    /\ existsb is_read (calls (snd r)) = false.
Proof.
  intros W os d w cluster clusters h offset. unfold read_clusters.
  run_monad; to_arith; intros Hin; in_cases Hin;
    try discriminate Hin; inversion Hin; subst; try congruence;
    repeat split; reflexivity.
Qed.

Lemma seek_returning_zero_aborts_witness :
  let r := run (read_clusters Sim.os 0 1)
             (set_current_position 8 Sim.small_volume)
             (Sim.small_world Sim.insatiable_driver) in
  fst r = Raised (WinError (get_last_error Sim.os (world (snd r))))
  /\ self (snd r) = set_current_position 8 Sim.small_volume
  /\ existsb is_read (calls (snd r)) = false.
Proof.
  apply (seek_returning_zero_aborts Sim.world Sim.os
           (set_current_position 8 Sim.small_volume)
           (Sim.small_world Sim.insatiable_driver) 0 1
           (PyInt Sim.volume_handle) 0).
  vm_compute. left. reflexivity.
Defined.

(** X5.  [read_clusters] assigns to [current_position] only: the path, the
    handle and the six geometry attributes are the same after every call,
    returned or raised, and so is the geometry invariant. *)
Theorem read_clusters_keeps_geometry :
  forall (W : Type) (os : OS W) (d : NTFSDisk) (w : W) (cluster clusters : Z),
    let d' := self (snd (run (read_clusters os cluster clusters) d w)) in
    disk_path d' = disk_path d
    /\ handle d' = handle d
    /\ size_bytes d' = size_bytes d
    /\ cluster_size d' = cluster_size d
    /\ sector_size d' = sector_size d
    /\ sectors_per_cluster d' = sectors_per_cluster d
    /\ cluster_count d' = cluster_count d
    /\ sector_count d' = sector_count d
    /\ geometry_invariant d' = geometry_invariant d.
Proof.
  intros W os d w cluster clusters d'. subst d'.
  destruct (read_clusters_touches_cursor_only os d w cluster clusters)
    as [E | [offset E]]; rewrite E; repeat split; reflexivity.
Qed.

Section ValidRequests.
Context {W : Type} (os : OS W).

(** What a request inside the volume does once its buffer is allocated:
    nothing but raise [TypeError] when the tracked cursor is at the byte
    offset of the first cluster, and one [SetFilePointer] to that offset
    otherwise. *)
Lemma valid_request_outcome (d : NTFSDisk) (w : W) (h : pyhandle)
    (cs spc ss cc pos cluster clusters : Z) :
  geometry_invariant d = true ->
  handle d = Some h ->
  cluster_size d = Some cs ->
  sectors_per_cluster d = Some spc ->
  sector_size d = Some ss ->
  cluster_count d = Some cc ->
  current_position d = Some pos ->
  0 < clusters -> 0 <= cluster -> cluster + clusters <= cc ->
  cs * clusters <= PY_SSIZE_T_MAX - PyBytesObject_SIZE ->
  can_allocate os (cs * clusters) w = true ->
  run (read_clusters os cluster clusters) d w =
    if pos =? cluster * spc * ss then
      (Raised TypeError, {| self := d; world := w; calls := [] |})
    else
      (if fst (SetFilePointer os h (cluster * spc * ss) w) =? 0 then
         Raised (WinError
                   (get_last_error os
                      (snd (SetFilePointer os h (cluster * spc * ss) w))))
       else Raised TypeError,
       {| self :=
            if fst (SetFilePointer os h (cluster * spc * ss) w) =? 0 then d
            else set_current_position (cluster * spc * ss) d;
          world := snd (SetFilePointer os h (cluster * spc * ss) w);
          calls :=
            [EvSetFilePointer h (cluster * spc * ss)
               (fst (SetFilePointer os h (cluster * spc * ss) w))] |}).
Proof.
  intros Hinv Hh Hcs Hspc Hss Hcc Hpos Hn Hlo Hhi Hfit Hmem.
  destruct (geometry_invariant_fields d Hinv)
    as (sb & cs' & ss' & spc' & Hsb & Hcs' & Hss' & Hspc' & Hcc' & Hsc'
        & Psb & Pcs & Pss & Pspc & Ecs).
  rewrite Hcs in Hcs'. rewrite Hss in Hss'. rewrite Hspc in Hspc'.
  rewrite Hcc in Hcc'. same_attrs.
  pose proof (cluster_range_is_sector_range sb ss' spc' cluster clusters
                Pss Pspc Hn Hlo Hhi) as (S1 & S2 & S3).
  unfold PY_SSIZE_T_MAX, PyBytesObject_SIZE in Hfit.
  unfold read_clusters. run_monad; same_attrs.
  all: try match goal with
         | H : SetFilePointer _ _ _ _ = _ |- _ =>
             rewrite H in *; cbn [fst snd] in *
         end.
  all: try congruence.
  all: to_arith;
    unfold PY_SSIZE_T_MIN, PY_SSIZE_T_MAX, PyBytesObject_SIZE in *.
  all: try lia.
  all: try congruence.
  all: try (rewrite ?repeat_length in *; nia).
Qed.

End ValidRequests.

(** X7.  Under the geometry invariant, take a request inside the volume
    whose buffer can be allocated.  With the tracked cursor at the byte
    offset of the first cluster the call issues no OS call and raises
    [TypeError].  With the tracked cursor elsewhere it issues exactly one
    call, the [SetFilePointer] to that offset on [self.handle]: when that
    returns 0 the call raises [WinError] and the cursor is kept, otherwise
    the cursor is set to the offset and the call raises [TypeError]. *)
Theorem valid_request_seeks_only_when_needed :
  forall (W : Type) (os : OS W) (d : NTFSDisk) (w : W) (h : pyhandle)
         (cs spc ss cc pos cluster clusters : Z),
    geometry_invariant d = true ->
    handle d = Some h ->
    cluster_size d = Some cs ->
    sectors_per_cluster d = Some spc ->
    sector_size d = Some ss ->
    cluster_count d = Some cc ->
    current_position d = Some pos ->
    0 < clusters -> 0 <= cluster -> cluster + clusters <= cc ->
    cs * clusters <= PY_SSIZE_T_MAX - PyBytesObject_SIZE ->
    can_allocate os (cs * clusters) w = true ->
    pos <> cluster * spc * ss ->
    let offset := cluster * spc * ss in
    let seek := SetFilePointer os h offset w in
    let r := run (read_clusters os cluster clusters) d w in
    run (read_clusters os cluster clusters) (set_current_position offset d) w
      = (Raised TypeError,
         {| self := set_current_position offset d; world := w; calls := [] |})
    /\ snd r =
       {| self := if fst seek =? 0 then d else set_current_position offset d;
          world := snd seek;
          calls := [EvSetFilePointer h offset (fst seek)] |}
    /\ fst r =
       if fst seek =? 0 then Raised (WinError (get_last_error os (snd seek)))
       else Raised TypeError.
Proof.
  intros W os d w h cs spc ss cc pos cluster clusters
         Hinv Hh Hcs Hspc Hss Hcc Hpos Hn Hlo Hhi Hfit Hmem Hcur
         offset seek r.
  split.
  - rewrite (valid_request_outcome os (set_current_position offset d) w h
               cs spc ss cc offset cluster clusters);
      try assumption; try reflexivity.
    subst offset. now rewrite Z.eqb_refl.
  - subst r seek offset.
    rewrite (valid_request_outcome os d w h cs spc ss cc pos cluster clusters)
      by assumption.
    apply Z.eqb_neq in Hcur. rewrite Hcur. split; reflexivity.
Qed.

Lemma valid_request_seeks_only_when_needed_witness :
  let w := Sim.small_world Sim.insatiable_driver in
  let r := run (read_clusters Sim.os 1 1) Sim.small_volume w in
  run (read_clusters Sim.os 1 1) (set_current_position 8 Sim.small_volume) w
    = (Raised TypeError,
       {| self := set_current_position 8 Sim.small_volume; world := w;
          calls := [] |})
  /\ snd r =
     {| self := set_current_position 8 Sim.small_volume;
        world := Sim.with_pointer 8 w;
        calls := [EvSetFilePointer (PyInt Sim.volume_handle) 8 8] |}
  /\ fst r = Raised TypeError.
Proof.
  apply (valid_request_seeks_only_when_needed Sim.world Sim.os
           Sim.small_volume (Sim.small_world Sim.insatiable_driver)
           (PyInt Sim.volume_handle) 8 2 4 8 0 1 1);
    first [reflexivity | lia
          | (unfold PY_SSIZE_T_MAX, PyBytesObject_SIZE; lia)].
Defined.

(* ================================================================== *)
(** ** Further properties of [get_retrieval_pointers] *)

(** X8.  When the query fails with a status other than ERROR_MORE_DATA,
    [get_retrieval_pointers] raises [WinError] with that status after this
    one query, returns no extents and leaves the object as it was. *)
Theorem other_status_is_raised :
  forall (W : Type) (os : OS W) (file_handle : pyhandle) (d : NTFSDisk)
         (w : W) (fuel : nat),
    io_ok (fst (first_query os file_handle w)) = false ->
    get_last_error os (snd (first_query os file_handle w))
      <> ERROR_MORE_DATA ->
    run (get_retrieval_pointers os (S fuel) file_handle) d w =
      (Raised (WinError
                 (get_last_error os (snd (first_query os file_handle w)))),
       {| self := d; world := snd (first_query os file_handle w);
          calls := [EvDeviceIoControl file_handle fsctl_get_ptrs 1024
                      false] |}).
Proof.
  intros W os file_handle d w fuel. apply first_query_other_status.
Qed.

Lemma other_status_is_raised_witness :
  run (get_retrieval_pointers Sim.os 1 (PyInt 99)) Sim.small_volume
      (Sim.small_world (Sim.layout_driver Sim.two_runs)) =
    (Raised (WinError
               (get_last_error Sim.os
                  (snd (first_query Sim.os (PyInt 99)
                          (Sim.small_world
                             (Sim.layout_driver Sim.two_runs)))))),
     {| self := Sim.small_volume;
        world := snd (first_query Sim.os (PyInt 99)
                        (Sim.small_world (Sim.layout_driver Sim.two_runs)));
        calls := [EvDeviceIoControl (PyInt 99) fsctl_get_ptrs 1024 false] |}).
Proof.
  apply (other_status_is_raised Sim.world Sim.os (PyInt 99) Sim.small_volume
           (Sim.small_world (Sim.layout_driver Sim.two_runs)) 0).
  - reflexivity.
  - vm_compute. discriminate.
Defined.

(** X9.  In every environment [get_retrieval_pointers] sends the driver
    exactly one query, for the given file handle with a buffer of 1024
    bytes, issues no other OS call (it never reads or seeks the volume) and
    assigns to no attribute of the object. *)
Theorem resolution_is_one_query :
  forall (W : Type) (os : OS W) (file_handle : pyhandle) (d : NTFSDisk)
         (w : W) (fuel : nat),
    snd (run (get_retrieval_pointers os (S fuel) file_handle) d w) =
      {| self := d; world := snd (first_query os file_handle w);
         calls := [EvDeviceIoControl file_handle fsctl_get_ptrs 1024
                     (io_ok (fst (first_query os file_handle w)))] |}.
Proof.
  intros W os file_handle d w fuel.
  destruct (io_ok (fst (first_query os file_handle w))) eqn:Hok.
  - now rewrite (first_query_success os file_handle d w fuel Hok).
  - destruct (Z.eq_dec
                (get_last_error os (snd (first_query os file_handle w)))
                ERROR_MORE_DATA) as [Herr | Herr].
    + now rewrite (first_query_more_data os file_handle d w fuel Hok Herr).
    + now rewrite (first_query_other_status os file_handle d w fuel Hok Herr).
Qed.

(** X10.  When the query succeeds, [get_retrieval_pointers] returns the
    empty list if the response announces no record, and raises
    [AttributeError] in the first iteration of the decoding loop if it
    announces at least one: no record is ever decoded into an extent. *)
Theorem answered_query_decodes_no_record :
  forall (W : Type) (os : OS W) (file_handle : pyhandle) (d : NTFSDisk)
         (w : W) (fuel : nat),
    io_ok (fst (first_query os file_handle w)) = true ->
    let pointers :=
      as_RetrievalPointersBuffer
        (io_out (fst (first_query os file_handle w))) in
    fst (run (get_retrieval_pointers os (S fuel) file_handle) d w) =
      if 0 <? ExtentCount pointers then Raised (AttributeError "value")
      else Returned [].
Proof.
  intros W os file_handle d w fuel Hok pointers. subst pointers.
  rewrite (first_query_success os file_handle d w fuel Hok). cbn [fst].
  destruct (Z.ltb_spec 0
              (ExtentCount
                 (as_RetrievalPointersBuffer
                    (io_out (fst (first_query os file_handle w))))))
    as [Hpos | Hnone].
  - destruct (Z.to_nat _) eqn:E; [lia | reflexivity].
  - replace (Z.to_nat _) with 0%nat by lia. reflexivity.
Qed.

Lemma answered_query_decodes_no_record_witness :
  let one_run :=
    {| ExtentCount := 1; StartingVcn := 0;
       Extents := [ {| NextVcn := 3; Lcn := 40 |} ] |} in
  let none :=
    {| ExtentCount := 0; StartingVcn := 0; Extents := [] |} in
  fst (run (get_retrieval_pointers Sim.os 1 (PyInt Sim.file_handle))
         Sim.small_volume (Sim.small_world (Sim.layout_driver one_run)))
    = Raised (AttributeError "value")
  /\ fst (run (get_retrieval_pointers Sim.os 1 (PyInt Sim.file_handle))
            Sim.small_volume (Sim.small_world (Sim.layout_driver none)))
     = Returned [].
Proof.
  split.
  - exact (answered_query_decodes_no_record Sim.world Sim.os
             (PyInt Sim.file_handle) Sim.small_volume
             (Sim.small_world
                (Sim.layout_driver
                   {| ExtentCount := 1; StartingVcn := 0;
                      Extents := [ {| NextVcn := 3; Lcn := 40 |} ] |}))
             0 eq_refl).
  - exact (answered_query_decodes_no_record Sim.world Sim.os
             (PyInt Sim.file_handle) Sim.small_volume
             (Sim.small_world
                (Sim.layout_driver
                   {| ExtentCount := 0; StartingVcn := 0; Extents := [] |}))
             0 eq_refl).
Defined.

(* ================================================================== *)
(** ** Further properties of opening and closing *)

(** X12.  Once [__exit__] has run on an object whose [handle] attribute is
    set, whether it returned or raised, a further [__exit__] issues no OS
    call and returns; and on a handle that is [None] or 0 already the first
    [__exit__] does the same. *)
Theorem second_exit_is_silent :
  forall (W : Type) (os : OS W) (d : NTFSDisk) (w w' : W) (h : pyhandle),
    handle d = Some h ->
    let first := run (__exit__ os) d w in
    run (__exit__ os) (self (snd first)) w' =
      (Returned tt,
       {| self := self (snd first); world := w'; calls := [] |})
    /\ (truthy h = false ->
        first = (Returned tt, {| self := d; world := w; calls := [] |})).
Proof.
  intros W os d w w' h Hh first. subst first.
  assert (Hfalsy : forall (d0 : NTFSDisk) (w0 : W) (h0 : pyhandle),
             handle d0 = Some h0 -> truthy h0 = false ->
             run (__exit__ os) d0 w0 =
               (Returned tt, {| self := d0; world := w0; calls := [] |})).
  { intros d0 w0 h0 H0 Hf. unfold __exit__. unfold_monad. cbn.
    rewrite H0. cbn. rewrite Hf. reflexivity. }
  split.
  - destruct (truthy h) eqn:Ht.
    + apply (Hfalsy _ _ PyNone); [|reflexivity].
      apply (exit_passes_None os d w h Hh Ht).
    + rewrite (Hfalsy d w h Hh Ht). cbn. apply (Hfalsy d w' h Hh Ht).
  - intros Ht. apply (Hfalsy d w h Hh Ht).
Qed.

Lemma second_exit_is_silent_witness :
  let first := run (__exit__ Sim.os) Sim.small_volume
                 (Sim.small_world Sim.insatiable_driver) in
  run (__exit__ Sim.os) (self (snd first))
      (Sim.small_world Sim.insatiable_driver) =
    (Returned tt,
     {| self := self (snd first);
        world := Sim.small_world Sim.insatiable_driver; calls := [] |})
  /\ (truthy (PyInt Sim.volume_handle) = false ->
      first = (Returned tt,
               {| self := Sim.small_volume;
                  world := Sim.small_world Sim.insatiable_driver;
                  calls := [] |})).
Proof.
  apply (second_exit_is_silent Sim.world Sim.os Sim.small_volume
           (Sim.small_world Sim.insatiable_driver)
           (Sim.small_world Sim.insatiable_driver)
           (PyInt Sim.volume_handle)).
  reflexivity.
Defined.

(** X13.  The device queries of the constructor never call [CloseHandle]:
    when [CreateFile] returned a handle and one of the three queries that
    follow reports failure, the sequence raises [WinError] with the
    thread's last error while the opened handle is stored in [self.handle]
    and nothing has closed it. *)
Theorem failed_query_keeps_handle_open :
  forall (W : Type) (os : OS W) (d : NTFSDisk) (w : W) (path : string),
    disk_path d = Some path ->
    let opened := CreateFile os path w in
    let geometry :=
      DeviceIoControl os (fst opened) ioctl_get_disk_geometry None 0
        sizeof_DiskGeometry (snd opened) in
    let volume_length :=
      DeviceIoControl os (fst opened) ioctl_get_disk_length_info None 0
        sizeof_GetLengthInformation (snd geometry) in
    let space := GetFreeDiskSpace os path (snd volume_length) in
    let r := run (open_and_query os) d w in
    fst opened <> PyInt (-1) ->
    io_ok (fst geometry) = false
    \/ io_ok (fst volume_length) = false
    \/ ds_ok (fst space) = false ->
    fst r = Raised (WinError (get_last_error os (world (snd r))))
    /\ handle (self (snd r)) = Some (fst opened)
    /\ (forall (h : pyhandle) (ok : bool),
          ~ In (EvCloseHandle h ok) (calls (snd r))).
Proof.
  intros W os d w path Hpath.
  unfold open_and_query, _initialise_disk, _get_disk_geometry,
    _get_disk_length, _get_cluster_count.
  run_monad; same_attrs.
  all: repeat (match goal with
               | H : _ = (_, _) |- _ => rewrite H in *; clear H
               end; cbn [fst snd] in * ).
  all: intros Hopen Hfail.
  all: try (exfalso; apply Hopen;
            match goal with
            | H : pyhandle_eqb ?p _ = true |- _ =>
                destruct p as [|v]; cbn in H; [discriminate H|];
                apply Z.eqb_eq in H; now subst
            end).
  all: to_arith.
  all: try (exfalso; in_cases Hfail; congruence).
  all: repeat split; try reflexivity.
  all: intros h0 ok Hin; in_cases Hin; discriminate Hin.
Qed.

Lemma failed_query_keeps_handle_open_witness :
  let d := set_disk_path "\\.\C:" fresh_object in
  let w := Sim.small_world Sim.insatiable_driver in
  let r := run (open_and_query unsupported_ioctl_os) d w in
  fst r = Raised (WinError 1)
  /\ handle (self (snd r)) = Some (PyInt 12)
  /\ (forall (h : pyhandle) (ok : bool),
        ~ In (EvCloseHandle h ok) (calls (snd r))).
Proof.
  apply (failed_query_keeps_handle_open Sim.world unsupported_ioctl_os
           (set_disk_path "\\.\C:" fresh_object)
           (Sim.small_world Sim.insatiable_driver) "\\.\C:"%string).
  - reflexivity.
  - vm_compute. discriminate.
  - left. reflexivity.
Defined.



(* ================================================================== *)
(** ** copy_file *)

(** X15.  In every environment [copy_file] opens the source file and then
    fails without issuing another OS call: it raises [WinError] when
    [CreateFile] returned -1, [IndexError] when the source path is empty,
    and otherwise the [AttributeError] of the [NTFSDisk] constructor.  The
    destination is never opened, no extent is resolved or read, and the
    handle of the source file is never closed. *)
Theorem copy_file_never_copies :
  forall (W : Type) (os : OS W) (fuel : nat) (source_file : string) (w : W),
    let opened := CreateFile os source_file w in
    let r := copy_file os fuel source_file w in
    destination (snd r) = None
    /\ calls (disk_side (snd r)) = [EvCreateFile source_file (fst opened)]
    /\ world (disk_side (snd r)) = snd opened
    /\ fst r =
       if pyhandle_eqb (fst opened) (PyInt (-1)) then
         Failed (DiskExn (WinError (get_last_error os (snd opened))))
       else
         match source_file with
         | EmptyString => Failed IndexError
         | String _ _ => Failed (DiskExn (AttributeError "size_bytes"))
         end.
Proof.
  intros W os fuel source_file w. unfold copy_file.
  destruct (CreateFile os source_file w) as [handle w1].
  cbn [fst snd].
  destruct (pyhandle_eqb handle (PyInt (-1))); [repeat split|].
  destruct source_file as [|c rest]; repeat split.
Qed.






Section CopyLoops.
Context {W : Type} (os : OS W).

(** [read_clusters] raises from whatever state it is called in. *)
Lemma read_clusters_raises (m : machine W) (cluster clusters : Z) :
  exists e : exn, fst (read_clusters os cluster clusters m) = Raised e.
Proof.
  destruct m as [d w log]. unfold read_clusters.
  run_monad; eexists; reflexivity.
Qed.

(** The inner loop stops at its first chunk, having written nothing. *)
Lemma copy_chunks_stops (extent : FileExtent) (offsets : list Z)
    (dest : list byte) (copied_bytes : Z) (m : machine W) :
  snd (fst (fst (copy_chunks os extent offsets dest copied_bytes m))) = dest
  /\ snd (fst (copy_chunks os extent offsets dest copied_bytes m))
     = copied_bytes
  /\ match offsets with
     | [] => copy_chunks os extent offsets dest copied_bytes m =
             (Returned tt, dest, copied_bytes, m)
     | _ :: _ =>
         exists e : exn,
           fst (fst (fst (copy_chunks os extent offsets dest copied_bytes m)))
           = Raised e
     end.
Proof.
  destruct offsets as [|offset rest]; cbn [copy_chunks].
  - repeat split.
  - destruct (read_clusters_raises m (lcn extent + offset)
                (Z.min 10000 (size extent - offset))) as [e He].
    destruct (read_clusters os (lcn extent + offset)
                (Z.min 10000 (size extent - offset)) m) as [o m'].
    cbn [fst] in He. subst o. cbn. repeat split. exists e. reflexivity.
Qed.

Lemma py_range_nil_iff (stop : Z) :
  py_range stop 10000 = [] <-> stop <= 0.
Proof.
  unfold py_range. split.
  - intros H. apply (f_equal (@List.length Z)) in H.
    rewrite length_map, length_seq in H. cbn [List.length] in H.
    destruct (Z.leb_spec stop 0) as [Hle | Hgt]; [assumption|exfalso].
    assert (1 <= (stop + 10000 - 1) / 10000)
      by (apply Z.div_le_lower_bound; lia).
    lia.
  - intros Hle.
    assert (Hz : (stop + 10000 - 1) / 10000 <= 0).
    { apply Z.lt_succ_r. apply Z.div_lt_upper_bound; lia. }
    replace (Z.to_nat ((stop + 10000 - 1) / 10000)) with 0%nat by lia.
    reflexivity.
Qed.

End CopyLoops.

(** X17.  The copy loops of [copy_file] copy nothing: whatever the extents
    and the environment, they leave the destination and [copied_bytes] as
    they found them, and they run to the end only when no extent has a
    positive size; otherwise they stop with the exception that
    [read_clusters] raises for the first chunk. *)
Theorem copy_loops_copy_nothing :
  forall (W : Type) (os : OS W) (extents : list FileExtent)
         (dest : list byte) (copied_bytes : Z) (m : machine W),
    let r := copy_extents os extents dest copied_bytes m in
    snd (fst (fst r)) = dest
    /\ snd (fst r) = copied_bytes
    /\ (fst (fst (fst r)) = Returned tt
        <-> Forall (fun extent => size extent <= 0) extents)
    /\ (fst (fst (fst r)) = Returned tt
        \/ exists e : exn, fst (fst (fst r)) = Raised e).
Proof.
  intros W os extents. induction extents as [|extent rest IH];
    intros dest copied_bytes m; cbn [copy_extents].
  - cbn. repeat split; auto.
  - destruct (copy_chunks_stops os extent (py_range (size extent) 10000)
                dest copied_bytes m) as (Hdest & Hcopied & Hend).
    destruct (py_range (size extent) 10000) as [|offset offsets] eqn:Hrange.
    + rewrite Hend. specialize (IH dest copied_bytes m). cbv zeta in IH.
      destruct IH as (I1 & I2 & I3 & I4).
      assert (Hsize : size extent <= 0) by (now apply py_range_nil_iff).
      split; [exact I1|]. split; [exact I2|]. split; [|exact I4].
      rewrite I3. split.
      * intros H. constructor; assumption.
      * intros H. inversion H; assumption.
    + destruct Hend as [e He].
      destruct (copy_chunks os extent (offset :: offsets) dest copied_bytes m)
        as [[[o dest'] copied'] m'].
      cbn [fst snd] in *. subst o dest' copied'. cbn [fst snd].
      split; [reflexivity|]. split; [reflexivity|]. split.
      * split; [discriminate|].
        intros H. inversion H as [|x l Hsize Hrest]; subst.
        apply py_range_nil_iff in Hsize. congruence.
      * right. exists e. reflexivity.
Qed.
